(** * django_sharding_library.models

    A shallow embedding of [django_sharding_library/models.py] and the
    properties of its primary-shard resolution, of its lazily built choice
    sets, of the two storage schemas it declares and of the explicit-target
    write path ([save] and [bulk_create]). *)

From stdpp Require Import base option list sorting functions gmap strings.

Open Scope string_scope.

(** ** Python values

    The settings dictionaries and the [_state.db] attribute hold dynamically
    typed values. Only the shapes that reach the code are modelled: [None],
    booleans, integers and strings (database aliases and group tags). *)

Inductive pyval : Type :=
  | VNone
  | VBool (b : bool)
  | VInt (z : Z)
  | VStr (s : string).

(** Python's truth value testing: [None], [False], [0] and [''] are falsy. *)
Definition truthy (v : pyval) : bool :=
  match v with
  | VNone => false
  | VBool b => b
  | VInt z => negb (Z.eqb z 0)
  | VStr s => negb (String.eqb s "")
  end.

(** [not x] always yields a boolean. *)
Definition py_not (v : pyval) : pyval := VBool (negb (truthy v)).

(** [x and y] yields [x] when [x] is falsy and [y] otherwise. *)
Definition py_and (x y : pyval) : pyval := if truthy x then y else x.

(** [x or y] yields [x] when [x] is truthy and [y] otherwise. *)
Definition py_or (x y : pyval) : pyval := if truthy x then x else y.

(** [x is None] *)
Definition is_None (v : pyval) : bool :=
  match v with
  | VNone => true
  | _ => false
  end.

(** [d.get(key, default)] *)
Definition dict_get (d : gmap string pyval) (key : string) (default : pyval) : pyval :=
  match d !! key with
  | Some v => v
  | None => default
  end.

(** Exceptions the module itself can raise. *)
Inductive exn : Type :=
  | KeyError (key : string).

Inductive result (A : Type) : Type :=
  | Ok (a : A)
  | Raise (e : exn).
Arguments Ok {A} a.
Arguments Raise {A} e.

(** ** [_get_primary_shards]

    [settings.DATABASES] maps a database name to its settings dictionary. *)

Module Topology.

(** The lambda handed to [filter]. [settings.DATABASES[db]] is an index
    into the dictionary the name was drawn from, so the total lookup never
    takes its default. *)
Definition shard_filter (DATABASES : gmap string (gmap string pyval)) (db : string) : pyval :=
  py_and (py_not (dict_get (DATABASES !!! db) "PRIMARY" VNone))
         (dict_get (DATABASES !!! db) "SHARD_GROUP" VNone).

(** [DATABASES.keys()] *)
Definition keys (DATABASES : gmap string (gmap string pyval)) : list string :=
  (map_to_list DATABASES).*1.

(** [sorted] on strings: ascending in the lexicographic order of the
    characters. *)
Definition sorted (l : list string) : list string := merge_sort String.le l.

Definition _get_primary_shards (DATABASES : gmap string (gmap string pyval)) : list string :=
  sorted (filter (λ db, truthy (shard_filter DATABASES db) = true) (keys DATABASES)).

(** What the specification's configuration schema says of one entry: the
    [primary] key is absent and the [shardGroup] key is present. *)
Definition candidate_by_presence (conf : gmap string pyval) : Prop :=
  conf !! "PRIMARY" = None ∧ is_Some (conf !! "SHARD_GROUP").

(** What the filter computes on one entry. *)
Definition candidate (conf : gmap string pyval) : bool :=
  negb (truthy (dict_get conf "PRIMARY" VNone))
  && truthy (dict_get conf "SHARD_GROUP" VNone).

(** The specification's resolver takes the group tag as an argument and
    keeps the entries of that group only. *)
Definition in_group (conf : gmap string pyval) (group : string) : Prop :=
  conf !! "SHARD_GROUP" = Some (VStr group).

End Topology.

(** ** [SHARD_CHOICES]

    Both [ShardedByMixin] and [ShardStorageModel] hold the class attribute
    [SHARD_CHOICES = ((i, i) for i in _get_primary_shards())]. Executing a
    class body evaluates the outermost iterable of the generator expression
    at once, so [_get_primary_shards()] runs when the module is imported;
    the generator object then walks the list that call returned. *)

Module Choices.

(** A generator over a list: the names it has not yet visited. *)
Record generator : Type := Generator { pending : list string }.

(** [((i, i) for i in src)] *)
Definition genexpr (src : list string) : generator := Generator src.

(** [next(g)]: the next pair, or [None] for [StopIteration]. *)
Definition next (g : generator) : option (string * string) * generator :=
  match pending g with
  | [] => (None, g)
  | i :: rest => (Some (i, i), Generator rest)
  end.

(** [list(g)]: pull items until the generator stops; the generator object
    is left exhausted. *)
Fixpoint pairs (src : list string) : list (string * string) :=
  match src with
  | [] => []
  | i :: rest => (i, i) :: pairs rest
  end.

Definition py_list (g : generator) : list (string * string) * generator :=
  (pairs (pending g), Generator []).

(** [models.CharField(..., choices=g)]: Django's field constructor turns an
    iterator it is given into a list on the spot, [choices = list(choices)],
    which leaves the generator exhausted; the list is the field's
    [choices]. *)
Definition CharField (choices : generator) : list (string * string) * generator :=
  py_list choices.

(** The two lines both class bodies share:
    [SHARD_CHOICES = ((i, i) for i in _get_primary_shards())] and
    [shard = models.CharField(..., choices=SHARD_CHOICES)]. The field is
    handed the generator object the attribute names. *)
Definition class_body (D : gmap string (gmap string pyval))
  : generator * list (string * string) :=
  let SHARD_CHOICES := genexpr (Topology._get_primary_shards D) in
  let '(choices, SHARD_CHOICES) := CharField SHARD_CHOICES in
  (SHARD_CHOICES, choices).

(** The interpreter state the module lives in: the current settings and,
    for each of the two classes, the [SHARD_CHOICES] attribute and the
    choices of the [shard] field. *)
Record process : Type := Process {
  DATABASES : gmap string (gmap string pyval);
  ShardedByMixin_SHARD_CHOICES : generator;
  ShardedByMixin_shard_choices : list (string * string);
  ShardStorageModel_SHARD_CHOICES : generator;
  ShardStorageModel_shard_choices : list (string * string)
}.

(** Importing [models.py] under the settings [D]. *)
Definition import_models (D : gmap string (gmap string pyval)) : process :=
  let '(mixin_attr, mixin_choices) := class_body D in
  let '(storage_attr, storage_choices) := class_body D in
  Process D mixin_attr mixin_choices storage_attr storage_choices.

(** The settings are replaced while the process runs. *)
Definition configure (D : gmap string (gmap string pyval)) (p : process) : process :=
  Process D
          (ShardedByMixin_SHARD_CHOICES p) (ShardedByMixin_shard_choices p)
          (ShardStorageModel_SHARD_CHOICES p) (ShardStorageModel_shard_choices p).

(** [list(ShardedByMixin.SHARD_CHOICES)] *)
Definition enumerate_mixin (p : process) : list (string * string) * process :=
  let '(items, g) := py_list (ShardedByMixin_SHARD_CHOICES p) in
  (items, Process (DATABASES p)
                  g (ShardedByMixin_shard_choices p)
                  (ShardStorageModel_SHARD_CHOICES p) (ShardStorageModel_shard_choices p)).

(** [list(ShardStorageModel.SHARD_CHOICES)] *)
Definition enumerate_storage (p : process) : list (string * string) * process :=
  let '(items, g) := py_list (ShardStorageModel_SHARD_CHOICES p) in
  (items, Process (DATABASES p)
                  (ShardedByMixin_SHARD_CHOICES p) (ShardedByMixin_shard_choices p)
                  g (ShardStorageModel_shard_choices p)).

(** What can happen to the process after the import: the settings are
    replaced, or one of the two attributes is enumerated. *)
Inductive event : Type :=
  | Configure (D : gmap string (gmap string pyval))
  | ListMixin
  | ListStorage.

Definition step (p : process) (e : event) : process :=
  match e with
  | Configure D => configure D p
  | ListMixin => (enumerate_mixin p).2
  | ListStorage => (enumerate_storage p).2
  end.

Definition run (es : list event) (p : process) : process := foldl step p es.

(** The choice set as the specification words it: the pairs for the primary
    shards of the configuration in force when the choices are asked for. *)
Definition choices_of (D : gmap string (gmap string pyval)) : list (string * string) :=
  pairs (Topology._get_primary_shards D).

End Choices.

(** ** Storage schemas *)

(** The column options the two abstract models pass to their fields; a
    primary key is unique and not null. *)
Record column : Type := Column {
  primary_key : bool;
  null : bool;
  unique : bool;
  default : option pyval;
  max_length : option nat
}.

(** *** [TableStrategyModel] *)

Module TableStrategyModel.

(** Modelled from the spec: [BigAutoField] is declared in [fields.py]; it
    is an auto-incrementing integer key.
    [id = BigAutoField(primary_key=True)] *)
Definition id : column := Column true false true None None.

(** [stub = models.NullBooleanField(null=True, default=True, unique=True)] *)
Definition stub : column := Column false true true (Some (VBool true)) None.

(** A stored row; [None] in [row_stub] is SQL [NULL]. *)
Record row : Type := Row { row_id : Z; row_stub : option bool }.

(** A counter table: its rows and the next value of the auto-increment. *)
Record table : Type := Table { rows : list row; next_id : Z }.

Definition empty : table := Table [] 1.

Inductive db_error : Type :=
  | IntegrityError.

(** A unique column admits any number of [NULL]s and at most one row per
    other value. *)
Definition conflicts (c : column) (v : option bool) (t : table) : bool :=
  unique c &&
  match v with
  | None => false
  | Some b => existsb (λ r, bool_decide (row_stub r = Some b)) (rows t)
  end.

(** [INSERT] of a row whose marker is [v], under the constraints of the
    marker column [c]; the key comes from the auto-increment. *)
Definition insert (c : column) (v : option bool) (t : table) : table * (Z + db_error) :=
  if conflicts c v t then (t, inr IntegrityError)
  else (Table (rows t ++ [Row (next_id t) v]) (next_id t + 1), inl (next_id t)).

(** The value a column takes when the caller passes none. *)
Definition default_marker (c : column) : option bool :=
  match default c with
  | Some (VBool b) => Some b
  | _ => None
  end.

(** [DELETE] of the row with key [k]. *)
Definition delete (k : Z) (t : table) : table :=
  Table (filter (λ r, row_id r ≠ k) (rows t)) (next_id t).

(** What callers do with a counter table: attempt an insert that writes the
    sentinel, or remove a row. *)
Inductive op : Type :=
  | InsertAttempt
  | Delete (k : Z).

Definition step (c : column) (o : op) (t : table) : table :=
  match o with
  | InsertAttempt => (insert c (default_marker c) t).1
  | Delete k => delete k t
  end.

Definition run (c : column) (ops : list op) (t : table) : table :=
  foldl (λ t o, step c o t) t ops.

(** The invariant of a counter table: every row carries the sentinel and
    there is at most one row. *)
Definition single (t : table) : Prop :=
  Forall (λ r, row_stub r = Some true) (rows t) ∧ (length (rows t) ≤ 1)%nat.

End TableStrategyModel.

(** *** [ShardStorageModel] *)

Module ShardStorageModel.

(** [shard = models.CharField(max_length=120, choices=SHARD_CHOICES)] *)
Definition shard : column := Column false false false None (Some 120).

(** [shard_key = models.CharField(primary_key=True, max_length=120)] *)
Definition shard_key : column := Column true false true None (Some 120).

Inductive outcome (A : Type) : Type :=
  | Done (a : A)
  | DuplicateKey
  | NotFound.
Arguments Done {A} a.
Arguments DuplicateKey {A}.
Arguments NotFound {A}.

(** Modelled from the spec: [recordMapping] is not in [models.py], which
    declares the table only. It inserts the pair [(shardKey, shard)] and
    fails with [DuplicateKey] when [shardKey] already has a mapping. The
    table is keyed by its primary-key column. *)
Definition recordMapping (k s : string) (t : gmap string string)
  : gmap string string * outcome unit :=
  match t !! k with
  | Some _ => (t, DuplicateKey)
  | None => (<[k := s]> t, Done ())
  end.

(** Modelled from the spec: [lookupShard] is not in [models.py] either. It
    returns the shard recorded for the key, or [NotFound]. *)
Definition lookupShard (k : string) (t : gmap string string) : outcome string :=
  match t !! k with
  | Some s => Done s
  | None => NotFound
  end.

End ShardStorageModel.

(** ** The explicit-target write path

    Model instances are mutable objects that callers and the query set
    share, so they live in a store addressed by reference. *)

Module WritePath.

Definition ref := nat.

(** [django.db.models.base.ModelState] *)
Record ModelState : Type := MkState { db : pyval; adding : bool }.

(** A model instance: its [_state] and its column values. *)
Record Model : Type := MkModel { _state : ModelState; attrs : gmap string pyval }.

Abbreviation store := (ref → Model).

(** [obj._state.db] *)
Definition state_db (h : store) (obj : ref) : pyval := db (_state (h obj)).

(** [obj._state.db = v] *)
Definition set_state_db (obj : ref) (v : pyval) (h : store) : store :=
  <[obj := MkModel (MkState v (adding (_state (h obj)))) (attrs (h obj))]> h.

(** [ShardLookupQuerySet]; [_db] is the alias given to [using], or [None]. *)
Record QuerySet : Type := MkQuerySet { _db : pyval }.

Section write_path.

(** What lies behind Django's own [save] and [bulk_create]: the database. *)
Context {Backend : Type}.

(** [models.Model.save(self, **kwargs)] *)
Variable super_save :
  ref → gmap string pyval → store * Backend → (store * Backend) * result unit.

(** [models.QuerySet.bulk_create(self, objs, batch_size)] *)
Variable super_bulk_create :
  QuerySet → list ref → pyval → store * Backend → (store * Backend) * result (list ref).

(** The [for obj in objs] loop of [bulk_create]. *)
Fixpoint bind_all (self : QuerySet) (objs : list ref) (h : store) : store :=
  match objs with
  | [] => h
  | obj :: rest =>
      bind_all self rest
        (if is_None (state_db h obj) then set_state_db obj (_db self) h else h)
  end.

(** [ShardLookupQuerySet.bulk_create]; [objs = list(objs)] copies the
    sequence, not the objects it refers to. *)
Definition bulk_create (self : QuerySet) (objs : list ref) (batch_size : pyval)
    (w : store * Backend) : (store * Backend) * result (list ref) :=
  super_bulk_create self objs batch_size (bind_all self objs w.1, w.2).

(** [ShardLookupBaseModel.save] *)
Definition save (self : ref) (kwargs : gmap string pyval)
    (w : store * Backend) : (store * Backend) * result unit :=
  if negb (truthy (state_db w.1 self)) then
    match kwargs !! "using" with
    | None => (w, Raise (KeyError "using"))
    | Some target => super_save self kwargs (set_state_db self target w.1, w.2)
    end
  else super_save self kwargs w.

End write_path.

(** A backend that only records the calls it receives, with the connection
    each object is bound to at the moment of the call. *)
Inductive call : Type :=
  | SaveCall (obj : ref) (bound : pyval) (kwargs : gmap string pyval)
  | BulkCreateCall (target : pyval) (objs : list ref) (bound : list pyval) (batch_size : pyval).

Definition recording_save (self : ref) (kwargs : gmap string pyval)
    (w : store * list call) : (store * list call) * result unit :=
  ((w.1, (w.2 ++ [SaveCall self (state_db w.1 self) kwargs])%list), Ok ()).

Definition recording_bulk_create (self : QuerySet) (objs : list ref) (batch_size : pyval)
    (w : store * list call) : (store * list call) * result (list ref) :=
  ((w.1, (w.2 ++ [BulkCreateCall (_db self) objs (state_db w.1 <$> objs) batch_size])%list),
   Ok objs).

(** Django's own [Model.save], which this module calls and does not
    contain, in what it does to [_state]: the database written to is
    [using or router.db_for_write(...)], which without a router of the
    project's is the database the instance is bound to, or ["default"];
    once the row is written the instance is bound to that database and is
    no longer [adding]. *)
Definition django_save (self : ref) (kwargs : gmap string pyval)
    (w : store * list call) : (store * list call) * result unit :=
  let target := py_or (dict_get kwargs "using" VNone)
                      (py_or (state_db w.1 self) (VStr "default")) in
  ((<[self := MkModel (MkState target false) (attrs (w.1 self))]> w.1,
    (w.2 ++ [SaveCall self (state_db w.1 self) kwargs])%list),
   Ok ()).

(** Django's own [QuerySet.bulk_create], likewise: an empty sequence is
    returned at once; otherwise the rows go to [self.db], which is
    [self._db or router.db_for_write(...)], and every object is then bound
    to that database and is no longer [adding]. *)
Definition django_bulk_create (self : QuerySet) (objs : list ref) (batch_size : pyval)
    (w : store * list call) : (store * list call) * result (list ref) :=
  match objs with
  | [] => (w, Ok [])
  | _ =>
      let target := py_or (_db self) (VStr "default") in
      ((foldl (λ (h : store) obj,
                 <[obj := MkModel (MkState target false) (attrs (h obj))]> h)
              w.1 objs,
        (w.2 ++ [BulkCreateCall (_db self) objs (state_db w.1 <$> objs) batch_size])%list),
       Ok objs)
  end.

(** A store of fresh instances, none of them bound to a connection. *)
Definition fresh : store := λ _, MkModel (MkState VNone true) ∅.

End WritePath.

(** ** Concrete inputs *)

Module Samples.

(** Two primaries of one group and a replica of the first. *)
Definition replicated : gmap string (gmap string pyval) :=
  {[ "A" := {[ "SHARD_GROUP" := VStr "g" ]};
     "B" := {[ "PRIMARY" := VStr "A"; "SHARD_GROUP" := VStr "g" ]};
     "C" := {[ "SHARD_GROUP" := VStr "g" ]} ]}.

(** Two primaries of two different groups. *)
Definition two_groups : gmap string (gmap string pyval) :=
  {[ "A" := {[ "SHARD_GROUP" := VStr "g" ]};
     "B" := {[ "SHARD_GROUP" := VStr "h" ]} ]}.

(** A shard whose [PRIMARY] key is present and holds [None], and one whose
    [SHARD_GROUP] key is present and holds the empty string. *)
Definition falsy_values : gmap string (gmap string pyval) :=
  {[ "A" := {[ "PRIMARY" := VNone; "SHARD_GROUP" := VStr "g" ]};
     "B" := {[ "SHARD_GROUP" := VStr "" ]} ]}.

(** Complete settings: a default database outside every group, two
    primaries of group [g] and a replica of the first. *)
Definition site : gmap string (gmap string pyval) :=
  {[ "default" := {[ "ENGINE" := VStr "django.db.backends.sqlite3";
                     "NAME" := VStr "default.sqlite3" ]};
     "A" := {[ "ENGINE" := VStr "django.db.backends.sqlite3";
               "NAME" := VStr "a.sqlite3";
               "SHARD_GROUP" := VStr "g" ]};
     "B" := {[ "ENGINE" := VStr "django.db.backends.sqlite3";
               "NAME" := VStr "b.sqlite3";
               "PRIMARY" := VStr "A";
               "SHARD_GROUP" := VStr "g" ]};
     "C" := {[ "ENGINE" := VStr "django.db.backends.sqlite3";
               "NAME" := VStr "c.sqlite3";
               "SHARD_GROUP" := VStr "g" ]} ]}.

(** The same databases after [B] has been made a primary and [C] a replica
    of [A]. *)
Definition site_regrouped : gmap string (gmap string pyval) :=
  {[ "default" := {[ "ENGINE" := VStr "django.db.backends.sqlite3";
                     "NAME" := VStr "default.sqlite3" ]};
     "A" := {[ "ENGINE" := VStr "django.db.backends.sqlite3";
               "NAME" := VStr "a.sqlite3";
               "SHARD_GROUP" := VStr "g" ]};
     "B" := {[ "ENGINE" := VStr "django.db.backends.sqlite3";
               "NAME" := VStr "b.sqlite3";
               "SHARD_GROUP" := VStr "g" ]};
     "C" := {[ "ENGINE" := VStr "django.db.backends.sqlite3";
               "NAME" := VStr "c.sqlite3";
               "PRIMARY" := VStr "A";
               "SHARD_GROUP" := VStr "g" ]} ]}.

(** Object 0 is bound to [connX], the others are fresh. *)
Definition one_bound : WritePath.store :=
  WritePath.set_state_db 0 (VStr "connX") WritePath.fresh.

(** Object 0 is bound to the empty string, the others are fresh. *)
Definition empty_alias : WritePath.store :=
  WritePath.set_state_db 0 (VStr "") WritePath.fresh.

(** The keyword arguments of [save(using="conn")]. *)
Definition using_conn : gmap string pyval := {[ "using" := VStr "conn" ]}.

End Samples.

(** * Properties *)

(** ** Python values *)

Lemma truthy_py_and_not (p g : pyval) :
  truthy (py_and (py_not p) g) = negb (truthy p) && truthy g.
Proof.
  unfold py_and, py_not; simpl.
  destruct (truthy p); reflexivity.
Qed.

Lemma dict_get_Some (d : gmap string pyval) key default v :
  d !! key = Some v → dict_get d key default = v.
Proof. intros H. unfold dict_get. by rewrite H. Qed.

Lemma dict_get_None (d : gmap string pyval) key default :
  d !! key = None → dict_get d key default = default.
Proof. intros H. unfold dict_get. by rewrite H. Qed.

(** ** Primary-shard resolution *)

Module TopologyFacts.
Import Topology.

Lemma elem_of_keys (D : gmap string (gmap string pyval)) (db : string) :
  db ∈ keys D ↔ is_Some (D !! db).
Proof.
  unfold keys. rewrite list_elem_of_fmap. split.
  - intros [[k conf] [-> Hin]]. apply elem_of_map_to_list in Hin. by exists conf.
  - intros [conf Hconf]. exists (db, conf). split; [done|].
    by apply elem_of_map_to_list.
Qed.

Lemma shard_filter_candidate (D : gmap string (gmap string pyval)) db conf :
  D !! db = Some conf → truthy (shard_filter D db) = candidate conf.
Proof.
  intros Hconf. unfold shard_filter, candidate.
  rewrite (lookup_total_correct D db conf Hconf).
  apply truthy_py_and_not.
Qed.

Lemma elem_of_sorted (l : list string) (x : string) : x ∈ sorted l ↔ x ∈ l.
Proof. unfold sorted. by rewrite merge_sort_Permutation. Qed.

Lemma sorted_ascending (l : list string) : StronglySorted String.le (sorted l).
Proof. unfold sorted. apply StronglySorted_merge_sort; apply _. Qed.

(** The order in which the dictionary yields its keys does not show in the
    result. *)
Lemma sorted_Permutation (l1 l2 : list string) : l1 ≡ₚ l2 → sorted l1 = sorted l2.
Proof.
  intros Hperm. unfold sorted.
  apply (Sorted_unique String.le); [apply Sorted_merge_sort, _ ..|].
  by rewrite !merge_sort_Permutation.
Qed.

Lemma sorted_NoDup (l : list string) : NoDup l → NoDup (sorted l).
Proof. unfold sorted. by rewrite merge_sort_Permutation. Qed.

Lemma elem_of_primary_shards (D : gmap string (gmap string pyval)) (db : string) :
  db ∈ _get_primary_shards D ↔ ∃ conf, D !! db = Some conf ∧ candidate conf = true.
Proof.
  unfold _get_primary_shards.
  rewrite elem_of_sorted, list_elem_of_filter, elem_of_keys. split.
  - intros [Hf [conf Hconf]]. exists conf. split; [done|].
    by rewrite <- (shard_filter_candidate D db conf Hconf).
  - intros (conf & Hconf & Hc). split; [|by exists conf].
    by rewrite (shard_filter_candidate D db conf Hconf).
Qed.

Lemma candidate_true (conf : gmap string pyval) :
  candidate conf = true ↔
    (conf !! "PRIMARY" = None ∨ ∃ p, conf !! "PRIMARY" = Some p ∧ truthy p = false)
    ∧ ∃ g, conf !! "SHARD_GROUP" = Some g ∧ truthy g = true.
Proof.
  unfold candidate, dict_get.
  rewrite andb_true_iff, negb_true_iff. split.
  - intros [Hp Hg]. split.
    + destruct (conf !! "PRIMARY") as [p|]; [right; by exists p | by left].
    + destruct (conf !! "SHARD_GROUP") as [g|]; [by exists g | discriminate].
  - intros [[Hp | (p & Hp & Hfalsy)] (g & Hg & Htruthy)]; rewrite Hp, Hg; done.
Qed.

(** C1, as the code has it: whatever the configuration, the result is in
    ascending lexicographic order without repetition, and a name is in it
    exactly when its entry has a falsy (absent, [None] or empty) [PRIMARY]
    setting and a truthy (present and non-empty) [SHARD_GROUP] setting, of
    whatever group. *)
Theorem primary_shards_sorted_exact (D : gmap string (gmap string pyval)) :
  StronglySorted String.le (_get_primary_shards D)
  ∧ NoDup (_get_primary_shards D)
  ∧ ∀ db, db ∈ _get_primary_shards D ↔
      ∃ conf, D !! db = Some conf
        ∧ truthy (dict_get conf "PRIMARY" VNone) = false
        ∧ truthy (dict_get conf "SHARD_GROUP" VNone) = true.
Proof.
  split; [apply sorted_ascending|]. split.
  - apply sorted_NoDup, NoDup_filter, NoDup_fst_map_to_list.
  - intros db. rewrite elem_of_primary_shards. unfold candidate.
    setoid_rewrite andb_true_iff. setoid_rewrite negb_true_iff. done.
Qed.

(** C1, as the claim has it, fails: with primaries in two groups the result
    holds a name whose group is not the requested one. *)
Lemma primary_shards_ignore_group :
  _get_primary_shards Samples.two_groups = ["A"; "B"]
  ∧ ¬ (∀ db, db ∈ _get_primary_shards Samples.two_groups →
         in_group (Samples.two_groups !!! db) "g").
Proof.
  split; [by vm_compute|].
  intros H. specialize (H "B").
  assert (Hin : "B" ∈ _get_primary_shards Samples.two_groups).
  { replace (_get_primary_shards Samples.two_groups) with ["A"; "B"] by (by vm_compute).
    set_solver. }
  apply H in Hin. unfold in_group in Hin. vm_compute in Hin. discriminate.
Qed.

(** C7, as the code has it: an entry of the configuration is returned
    exactly when the value of its [PRIMARY] setting is falsy (the key absent,
    or present with a falsy value) and the value of its [SHARD_GROUP]
    setting is truthy (the key present with a non-empty value). *)
Theorem candidate_by_truthiness (D : gmap string (gmap string pyval)) db conf :
  D !! db = Some conf →
  db ∈ _get_primary_shards D ↔
    (conf !! "PRIMARY" = None ∨ ∃ p, conf !! "PRIMARY" = Some p ∧ truthy p = false)
    ∧ ∃ g, conf !! "SHARD_GROUP" = Some g ∧ truthy g = true.
Proof.
  intros Hconf. rewrite <- candidate_true, elem_of_primary_shards. split.
  - intros (conf' & Hconf' & Hc). congruence.
  - intros Hc. by exists conf.
Qed.

Lemma candidate_by_truthiness_witness :
  "A" ∈ _get_primary_shards Samples.falsy_values ↔
    (({[ "PRIMARY" := VNone; "SHARD_GROUP" := VStr "g" ]} : gmap string pyval) !! "PRIMARY" = None
     ∨ ∃ p, ({[ "PRIMARY" := VNone; "SHARD_GROUP" := VStr "g" ]} : gmap string pyval) !! "PRIMARY" = Some p
            ∧ truthy p = false)
    ∧ ∃ g, ({[ "PRIMARY" := VNone; "SHARD_GROUP" := VStr "g" ]} : gmap string pyval) !! "SHARD_GROUP" = Some g
           ∧ truthy g = true.
Proof.
  apply (candidate_by_truthiness Samples.falsy_values "A").
  vm_compute. reflexivity.
Defined.

(** C7, as the claim has it, fails both ways: a shard whose [PRIMARY] key is
    present with the value [None] is returned, and a shard whose
    [SHARD_GROUP] key is present with the empty string is not. *)
Lemma candidate_not_by_presence :
  _get_primary_shards Samples.falsy_values = ["A"]
  ∧ ¬ candidate_by_presence (Samples.falsy_values !!! "A")
  ∧ candidate_by_presence (Samples.falsy_values !!! "B").
Proof.
  split; [by vm_compute|]. split.
  - intros [Hp _]. vm_compute in Hp. discriminate.
  - split; [by vm_compute|]. exists (VStr ""). by vm_compute.
Qed.

(** C8: with [A] and [C] primaries of group [g] and [B] a replica of [A],
    the result is [A; C]. *)
Theorem primary_shards_scenario :
  _get_primary_shards Samples.replicated = ["A"; "C"].
Proof. vm_compute. reflexivity. Qed.

End TopologyFacts.

(** ** Choice sets *)

Module ChoicesFacts.
Import Choices.

(** [py_list] is what repeated [next] produces. *)
Lemma py_list_next (g : generator) :
  match next g with
  | (Some item, g') => py_list g = (item :: (py_list g').1, (py_list g').2)
  | (None, _) => py_list g = ([], Generator [])
  end.
Proof. destruct g as [[|i rest]]; reflexivity. Qed.

Lemma py_list_exhausts (g : generator) : py_list (py_list g).2 = ([], Generator []).
Proof. reflexivity. Qed.

(** Only its own enumeration moves a generator. *)
Lemma mixin_choices_kept (es : list event) (p : process) :
  ListMixin ∉ es →
  ShardedByMixin_SHARD_CHOICES (run es p) = ShardedByMixin_SHARD_CHOICES p.
Proof.
  revert p. induction es as [|e es IH]; intros p Hnotin; [done|].
  apply not_elem_of_cons in Hnotin as [Hne Hnotin].
  unfold run in *; simpl. rewrite IH by done.
  by destruct e.
Qed.

Lemma storage_choices_kept (es : list event) (p : process) :
  ListStorage ∉ es →
  ShardStorageModel_SHARD_CHOICES (run es p) = ShardStorageModel_SHARD_CHOICES p.
Proof.
  revert p. induction es as [|e es IH]; intros p Hnotin; [done|].
  apply not_elem_of_cons in Hnotin as [Hne Hnotin].
  unfold run in *; simpl. rewrite IH by done.
  by destruct e.
Qed.


(** Nothing that happens after the import touches the choices of the two
    fields. *)
Lemma field_choices_kept (es : list event) (p : process) :
  ShardedByMixin_shard_choices (run es p) = ShardedByMixin_shard_choices p
  ∧ ShardStorageModel_shard_choices (run es p) = ShardStorageModel_shard_choices p.
Proof.
  revert p. induction es as [|e es IH]; intros p; [done|].
  unfold run in *; simpl.
  destruct (IH (step p e)) as [-> ->]. by destruct e.
Qed.

(** C6, as the code has it: the choice set is computed once, when the
    module is imported, and kept as the choices of the [shard] field.
    However the settings are replaced afterwards, and however often the
    class attributes are enumerated, the choices of either field stay the
    pairs for the primary shards of the settings in force at import. *)
Theorem choices_fixed_at_import (D : gmap string (gmap string pyval)) (es : list event) :
  ShardedByMixin_shard_choices (run es (import_models D)) = choices_of D
  ∧ ShardStorageModel_shard_choices (run es (import_models D)) = choices_of D.
Proof.
  destruct (field_choices_kept es (import_models D)) as [-> ->]. by split.
Qed.

(** C6, as the claim has it, fails: after a change of settings the choices
    of the field are still those of the settings at import, not those of
    the settings in force; and the class attribute, which the field has
    drained, yields nothing. *)
Lemma choices_not_recomputed :
  let p := configure Samples.site_regrouped (import_models Samples.site) in
  DATABASES p = Samples.site_regrouped
  ∧ ShardedByMixin_shard_choices p = [("A", "A"); ("C", "C")]
  ∧ choices_of Samples.site_regrouped = [("A", "A"); ("B", "B")]
  ∧ (enumerate_mixin p).1 = [].
Proof. vm_compute. repeat split. Qed.

End ChoicesFacts.

(** ** The counter table *)

Module TableStrategyModelFacts.
Import TableStrategyModel.

(** The marker written when the caller passes none is the sentinel. *)
Lemma default_marker_stub : default_marker stub = Some true.
Proof. reflexivity. Qed.

Lemma single_empty : single empty.
Proof. split; [constructor | simpl; lia]. Qed.

Lemma conflicts_sentinel (t : table) :
  Forall (λ r, row_stub r = Some true) (rows t) →
  conflicts stub (Some true) t = bool_decide (rows t ≠ []).
Proof.
  intros Hall. unfold conflicts; simpl.
  destruct (rows t) as [|r rs]; [done|].
  apply Forall_cons in Hall as [Hr _]. simpl.
  rewrite Hr. by rewrite bool_decide_eq_true_2.
Qed.

Lemma single_insert (t : table) : single t → single (insert stub (Some true) t).1.
Proof.
  intros Ht. unfold insert.
  rewrite (conflicts_sentinel t (proj1 Ht)).
  destruct (decide (rows t = [])) as [Hrows|Hrows].
  - rewrite bool_decide_eq_false_2 by (intros H; by apply H).
    split; simpl; rewrite Hrows; simpl; [by repeat constructor | lia].
  - by rewrite bool_decide_eq_true_2.
Qed.

Lemma single_delete (k : Z) (t : table) : single t → single (delete k t).
Proof.
  intros [Hall Hlen]. split; simpl.
  - apply Forall_forall. intros r Hr.
    apply list_elem_of_filter in Hr as [_ Hr].
    by apply (proj1 (Forall_forall _ _) Hall).
  - etrans; [apply length_filter | done].
Qed.

Lemma single_step (o : op) (t : table) : single t → single (step stub o t).
Proof.
  destruct o as [|k]; simpl.
  - apply single_insert.
  - apply single_delete.
Qed.

Lemma single_run (ops : list op) (t : table) : single t → single (run stub ops t).
Proof.
  revert t. induction ops as [|o ops IH]; intros t Ht; [done|].
  apply IH, single_step, Ht.
Qed.

(** C5: starting from the empty table, after any sequence of insert
    attempts that write the sentinel (and of deletions), the table holds at
    most one row, and that row carries the sentinel. *)
Theorem at_most_one_row (ops : list op) :
  (length (rows (run stub ops empty)) ≤ 1)%nat
  ∧ Forall (λ r, row_stub r = Some true) (rows (run stub ops empty)).
Proof.
  destruct (single_run ops empty single_empty) as [Hall Hlen]. by split.
Qed.

(** A first attempt is admitted and a second one is refused. *)
Lemma second_insert_refused :
  (insert stub (Some true) empty).2 = inl 1%Z
  ∧ (insert stub (Some true) (insert stub (Some true) empty).1).2 = inr IntegrityError.
Proof. by vm_compute. Qed.

(** It is the constraint that does it: the same attempts on a column that
    is not unique leave two rows. *)
Lemma rows_accumulate_without_unique :
  length (rows (run (Column false true false (Some (VBool true)) None)
                    [InsertAttempt; InsertAttempt] empty)) = 2.
Proof. reflexivity. Qed.

(** And it is the sentinel that does it: the constraint admits any number
    of rows whose marker is [NULL]. *)
Lemma null_markers_accumulate :
  length (rows (insert stub None (insert stub None empty).1).1) = 2.
Proof. reflexivity. Qed.

End TableStrategyModelFacts.

(** ** The shard mapping table *)

Module ShardStorageModelFacts.
Import ShardStorageModel.

(** C9: once [recordMapping k s] has succeeded, [lookupShard k] returns
    [s] and any further [recordMapping k s2] fails with [DuplicateKey] and
    leaves the table as it is, whether or not [s2] is [s]; a key without a
    mapping is [NotFound]. *)
Theorem mapping_write_once (k s s2 : string) (t t' : gmap string string) :
  recordMapping k s t = (t', Done ()) →
  lookupShard k t' = Done s
  ∧ recordMapping k s2 t' = (t', DuplicateKey)
  ∧ ∀ k', t' !! k' = None → lookupShard k' t' = NotFound.
Proof.
  unfold recordMapping, lookupShard. intros H.
  destruct (t !! k) as [old|] eqn:Hk; [discriminate|].
  injection H as <-.
  rewrite lookup_insert_eq. repeat split.
  intros k' Hk'. by rewrite Hk'.
Qed.

Lemma mapping_write_once_witness :
  lookupShard "user:1" {[ "user:1" := "A" ]} = Done "A"
  ∧ recordMapping "user:1" "B" {[ "user:1" := "A" ]} = ({[ "user:1" := "A" ]}, DuplicateKey)
  ∧ ∀ k', ({[ "user:1" := "A" ]} : gmap string string) !! k' = None →
          lookupShard k' {[ "user:1" := "A" ]} = NotFound.
Proof.
  apply (mapping_write_once "user:1" "A" "B" ∅).
  reflexivity.
Defined.

(** Recording a mapping for an absent key succeeds and touches no other key. *)
Lemma recordMapping_fresh (k s : string) (t : gmap string string) :
  t !! k = None →
  recordMapping k s t = (<[k := s]> t, Done ())
  ∧ ∀ k', k' ≠ k → (recordMapping k s t).1 !! k' = t !! k'.
Proof.
  intros Hk. unfold recordMapping. rewrite Hk. split; [done|].
  intros k' Hne. simpl. by rewrite lookup_insert_ne.
Qed.

Lemma lookupShard_empty (k : string) : lookupShard k ∅ = NotFound.
Proof. unfold lookupShard. by rewrite lookup_empty. Qed.

End ShardStorageModelFacts.

(** ** The explicit-target write path *)

Module WritePathFacts.
Import WritePath.

Lemma state_db_set_eq (obj : ref) (v : pyval) (h : store) :
  state_db (set_state_db obj v h) obj = v.
Proof. unfold state_db, set_state_db. by rewrite fn_lookup_insert. Qed.

Lemma set_state_db_ne (obj obj' : ref) (v : pyval) (h : store) :
  obj' ≠ obj → set_state_db obj v h obj' = h obj'.
Proof. intros Hne. unfold set_state_db. by rewrite fn_lookup_insert_ne. Qed.

Lemma attrs_set_state_db (obj obj' : ref) (v : pyval) (h : store) :
  attrs (set_state_db obj v h obj') = attrs (h obj').
Proof.
  destruct (decide (obj' = obj)) as [->|Hne].
  - unfold set_state_db. by rewrite fn_lookup_insert.
  - by rewrite set_state_db_ne.
Qed.

(** Binding [None] to an object that is bound to [None] changes nothing. *)
Lemma set_state_db_same (obj obj' : ref) (h : store) :
  set_state_db obj (state_db h obj) h obj' = h obj'.
Proof.
  destruct (decide (obj' = obj)) as [->|Hne]; [|by rewrite set_state_db_ne].
  unfold set_state_db, state_db. rewrite fn_lookup_insert.
  by destruct (h obj) as [[d a] f].
Qed.

(** One turn of the loop, seen from any object. *)
Lemma bind_one (self : QuerySet) (obj obj' : ref) (h : store) :
  state_db (if is_None (state_db h obj) then set_state_db obj (_db self) h else h) obj'
  = if decide (obj' = obj)
    then (if is_None (state_db h obj') then _db self else state_db h obj')
    else state_db h obj'.
Proof.
  destruct (decide (obj' = obj)) as [->|Hne].
  - destruct (is_None (state_db h obj)); [apply state_db_set_eq | done].
  - destruct (is_None (state_db h obj)); [|done].
    unfold state_db. by rewrite set_state_db_ne.
Qed.

(** The connection of every object once the loop has run. *)
Lemma state_db_bind_all (self : QuerySet) (objs : list ref) (h : store) (obj : ref) :
  state_db (bind_all self objs h) obj
  = if decide (obj ∈ objs)
    then (if is_None (state_db h obj) then _db self else state_db h obj)
    else state_db h obj.
Proof.
  revert h. induction objs as [|o rest IH]; intros h.
  - destruct (decide (obj ∈ [])) as [Hin|_]; [set_solver | done].
  - cbn [bind_all]. rewrite IH, !bind_one.
    destruct (decide (obj = o)) as [->|Hne].
    + destruct (decide (o ∈ o :: rest)) as [_|Hnotin]; [|set_solver].
      destruct (decide (o ∈ rest)); [|done].
      destruct (state_db h o) eqn:Ho; simpl; try done.
      by destruct (is_None (_db self)).
    + destruct (decide (obj ∈ rest)) as [Hin|Hin],
        (decide (obj ∈ o :: rest)) as [Hin'|Hin']; try done.
      * exfalso. apply Hin'. by apply list_elem_of_further.
      * exfalso. by apply elem_of_cons in Hin' as [?|?].
Qed.

(** The loop writes [_state.db] only. *)
Lemma attrs_bind_all (self : QuerySet) (objs : list ref) (h : store) (obj : ref) :
  attrs (bind_all self objs h obj) = attrs (h obj).
Proof.
  revert h. induction objs as [|o rest IH]; intros h; simpl; [done|].
  rewrite IH. destruct (is_None (state_db h o)); [apply attrs_set_state_db | done].
Qed.

(** The loop touches the objects of the sequence only. *)
Lemma bind_all_frame (self : QuerySet) (objs : list ref) (h : store) (obj : ref) :
  obj ∉ objs → bind_all self objs h obj = h obj.
Proof.
  revert h. induction objs as [|o rest IH]; intros h Hnotin; simpl; [done|].
  rewrite IH by set_solver.
  destruct (is_None (state_db h o)); [|done].
  apply set_state_db_ne. set_solver.
Qed.

(** With no target the loop changes no object. *)
Lemma bind_all_no_target (self : QuerySet) (objs : list ref) (h : store) (obj : ref) :
  _db self = VNone → bind_all self objs h obj = h obj.
Proof.
  intros Hdb. revert h. induction objs as [|o rest IH]; intros h; simpl; [done|].
  rewrite IH. rewrite Hdb.
  destruct (state_db h o) eqn:Ho; simpl; try done.
  rewrite <- Ho. apply set_state_db_same.
Qed.

Section write_path.

Context {Backend : Type}.
Variable super_save :
  ref → gmap string pyval → store * Backend → (store * Backend) * result unit.
Variable super_bulk_create :
  QuerySet → list ref → pyval → store * Backend → (store * Backend) * result (list ref).

(** C3, as the code has it: [bulk_create] hands the whole sequence to the
    underlying [bulk_create] in one call, on a store in which every object
    of the sequence that was bound to [None] is bound to the target and
    every other object is as it was; the outcome of the call, and the
    bindings after it, are those the underlying [bulk_create] leaves. *)
Theorem bulk_create_binds_then_inserts (self : QuerySet) (objs : list ref)
    (batch_size : pyval) (h : store) (b : Backend) :
  ∃ h',
    bulk_create super_bulk_create self objs batch_size (h, b)
    = super_bulk_create self objs batch_size (h', b)
    ∧ (∀ obj, obj ∈ objs →
         state_db h' obj = if is_None (state_db h obj) then _db self else state_db h obj)
    ∧ (∀ obj, obj ∉ objs → h' obj = h obj)
    ∧ (∀ obj, attrs (h' obj) = attrs (h obj)).
Proof.
  exists (bind_all self objs h). split; [reflexivity|]. split; [|split].
  - intros obj Hin. rewrite state_db_bind_all. by rewrite decide_True.
  - intros obj Hnotin. by apply bind_all_frame.
  - intros obj. apply attrs_bind_all.
Qed.

(** C4, as the code has it: with a target supplied, [save] hands the object
    to the underlying [save] bound to the connection it already had when it
    had one, and to the target otherwise; in the first case the store is
    untouched, and no other object is touched in either case. The outcome
    of the call, and the binding after it, are those the underlying [save]
    leaves. *)
Theorem save_first_bind_wins (self : ref) (kwargs : gmap string pyval)
    (target : pyval) (h : store) (b : Backend) :
  kwargs !! "using" = Some target →
  ∃ h',
    save super_save self kwargs (h, b) = super_save self kwargs (h', b)
    ∧ state_db h' self = (if truthy (state_db h self) then state_db h self else target)
    ∧ (truthy (state_db h self) = true → h' = h)
    ∧ (∀ obj, obj ≠ self → h' obj = h obj).
Proof.
  intros Husing. unfold save; simpl. rewrite Husing.
  destruct (truthy (state_db h self)) eqn:Hbound; simpl.
  - exists h. done.
  - exists (set_state_db self target h). split; [done|]. split; [|split].
    + apply state_db_set_eq.
    + discriminate.
    + intros obj Hne. by apply set_state_db_ne.
Qed.

(** An object bound to a connection is saved as it is, with or without a
    target. *)
Lemma save_bound (self : ref) (kwargs : gmap string pyval) (w : store * Backend) :
  truthy (state_db w.1 self) = true →
  save super_save self kwargs w = super_save self kwargs w.
Proof. intros Hbound. unfold save. by rewrite Hbound. Qed.

(** C2, as the code has it: [save] on an object without a connection and
    without a [using] keyword raises [KeyError] at once, the store and the
    backend untouched; [bulk_create] on a query set without a target
    raises nothing of its own: it hands the objects, as they are, to the
    underlying [bulk_create]. *)
Theorem missing_target (self : ref) (kwargs : gmap string pyval)
    (qs : QuerySet) (objs : list ref) (batch_size : pyval)
    (h : store) (b : Backend) :
  truthy (state_db h self) = false →
  kwargs !! "using" = None →
  _db qs = VNone →
  save super_save self kwargs (h, b) = ((h, b), Raise (KeyError "using"))
  ∧ ∃ h',
      bulk_create super_bulk_create qs objs batch_size (h, b)
      = super_bulk_create qs objs batch_size (h', b)
      ∧ ∀ obj, h' obj = h obj.
Proof.
  intros Hunbound Husing Hdb. split.
  - unfold save; simpl. by rewrite Hunbound, Husing.
  - exists (bind_all qs objs h). split; [reflexivity|].
    intros obj. by apply bind_all_no_target.
Qed.

(** C10, as the code has it: [save] tests the truth value of [_state.db]
    and [bulk_create] tests [_state.db is None]. For an object of the
    sequence, [save] hands the underlying [save] the old connection when it
    is truthy and the target otherwise, and [bulk_create] hands the
    underlying [bulk_create] the target when the old connection is [None]
    and the old connection otherwise. So an object bound to the empty
    string reaches the underlying [save] bound to the target and the
    underlying [bulk_create] bound to the empty string. *)
Theorem unbound_tests_differ (self : ref) (kwargs : gmap string pyval)
    (target : pyval) (qs : QuerySet) (objs : list ref) (batch_size : pyval)
    (h : store) (b : Backend) :
  kwargs !! "using" = Some target →
  self ∈ objs →
  ∃ hs hb,
    save super_save self kwargs (h, b) = super_save self kwargs (hs, b)
    ∧ bulk_create super_bulk_create qs objs batch_size (h, b)
      = super_bulk_create qs objs batch_size (hb, b)
    ∧ state_db hs self
      = (if truthy (state_db h self) then state_db h self else target)
    ∧ state_db hb self
      = (if is_None (state_db h self) then _db qs else state_db h self)
    ∧ (state_db h self = VStr "" →
       state_db hs self = target ∧ state_db hb self = VStr "").
Proof.
  intros Husing Hin.
  exists (if truthy (state_db h self) then h else set_state_db self target h),
         (bind_all qs objs h).
  assert (Hs : state_db (if truthy (state_db h self) then h
                         else set_state_db self target h) self
               = if truthy (state_db h self) then state_db h self else target).
  { destruct (truthy (state_db h self)); [done | apply state_db_set_eq]. }
  assert (Hb : state_db (bind_all qs objs h) self
               = if is_None (state_db h self) then _db qs else state_db h self).
  { rewrite state_db_bind_all. by rewrite decide_True. }
  split; [|split; [reflexivity|]].
  - unfold save; simpl. rewrite Husing. by destruct (truthy (state_db h self)).
  - split; [done|]. split; [done|].
    intros Hempty. rewrite Hs, Hb, Hempty. done.
Qed.

End write_path.

Lemma save_first_bind_wins_witness :
  ∃ h',
    save recording_save 0 Samples.using_conn (Samples.one_bound, [])
    = recording_save 0 Samples.using_conn (h', [])
    ∧ state_db h' 0 = (if truthy (state_db Samples.one_bound 0)
                       then state_db Samples.one_bound 0 else VStr "conn")
    ∧ (truthy (state_db Samples.one_bound 0) = true → h' = Samples.one_bound)
    ∧ (∀ obj, obj ≠ 0 → h' obj = Samples.one_bound obj).
Proof.
  apply (save_first_bind_wins recording_save 0 Samples.using_conn (VStr "conn")).
  reflexivity.
Defined.

Lemma missing_target_witness :
  save recording_save 0 ∅ (fresh, []) = ((fresh, []), Raise (KeyError "using"))
  ∧ ∃ h',
      bulk_create recording_bulk_create (MkQuerySet VNone) [0; 1] VNone (fresh, [])
      = recording_bulk_create (MkQuerySet VNone) [0; 1] VNone (h', [])
      ∧ ∀ obj, h' obj = fresh obj.
Proof.
  apply (missing_target recording_save recording_bulk_create 0 ∅ (MkQuerySet VNone));
    reflexivity.
Defined.

Lemma unbound_tests_differ_witness :
  ∃ hs hb,
    save recording_save 0 Samples.using_conn (Samples.empty_alias, [])
    = recording_save 0 Samples.using_conn (hs, [])
    ∧ bulk_create recording_bulk_create (MkQuerySet (VStr "conn")) [0; 1] VNone
        (Samples.empty_alias, [])
      = recording_bulk_create (MkQuerySet (VStr "conn")) [0; 1] VNone (hb, [])
    ∧ state_db hs 0
      = (if truthy (state_db Samples.empty_alias 0)
         then state_db Samples.empty_alias 0 else VStr "conn")
    ∧ state_db hb 0
      = (if is_None (state_db Samples.empty_alias 0)
         then VStr "conn" else state_db Samples.empty_alias 0)
    ∧ (state_db Samples.empty_alias 0 = VStr "" →
       state_db hs 0 = VStr "conn" ∧ state_db hb 0 = VStr "").
Proof.
  apply (unbound_tests_differ recording_save recording_bulk_create 0
           Samples.using_conn (VStr "conn") (MkQuerySet (VStr "conn"))).
  - reflexivity.
  - left.
Defined.

(** A [using] keyword that holds [None] is no missing key: [save] binds
    [None] and delegates. *)
Lemma save_using_None_proceeds :
  let r := save recording_save 0 {[ "using" := VNone ]} (fresh, []) in
  r.2 = Ok () ∧ r.1.2 = [SaveCall 0 VNone {[ "using" := VNone ]}].
Proof. by vm_compute. Qed.

(** C2, as the claim has it, fails for [bulk_create]: on fresh objects and a
    query set without a target the call goes through to the underlying
    [bulk_create], which sees the objects unbound, and returns normally. *)
Lemma bulk_create_without_target_proceeds :
  let r := bulk_create recording_bulk_create (MkQuerySet VNone) [0; 1] VNone (fresh, []) in
  r.2 = Ok [0; 1]
  ∧ r.1.2 = [BulkCreateCall VNone [0; 1] [VNone; VNone] VNone].
Proof. by vm_compute. Qed.

(** C3, as the claim has it, fails for the state after the call: Django's
    [bulk_create] sees object 0 on [connX] and the others on the target,
    and leaves all three bound to the database it wrote to. *)
Lemma bulk_create_rebound_after_call :
  let r := bulk_create django_bulk_create (MkQuerySet (VStr "conn")) [0; 1; 2] VNone
             (Samples.one_bound, []) in
  state_db Samples.one_bound 0 = VStr "connX"
  ∧ r.1.2 = [BulkCreateCall (VStr "conn") [0; 1; 2]
               [VStr "connX"; VStr "conn"; VStr "conn"] VNone]
  ∧ state_db r.1.1 0 = VStr "conn"
  ∧ state_db r.1.1 0 ≠ state_db Samples.one_bound 0.
Proof. by vm_compute. Qed.

(** C4, as the claim has it, fails for the state after the call: Django's
    [save] receives object 0 on [connX] and leaves it bound to the [using]
    alias. *)
Lemma save_rebound_after_call :
  let r := save django_save 0 Samples.using_conn (Samples.one_bound, []) in
  state_db Samples.one_bound 0 = VStr "connX"
  ∧ r.1.2 = [SaveCall 0 (VStr "connX") Samples.using_conn]
  ∧ state_db r.1.1 0 = VStr "conn"
  ∧ state_db r.1.1 0 ≠ state_db Samples.one_bound 0.
Proof. by vm_compute. Qed.

(** C10, as the claim has it, fails for the state after the call: an
    object bound to the empty string reaches Django's [bulk_create] as it
    is, and comes back bound to the database written to. *)
Lemma bulk_create_empty_alias_rebound :
  let r := bulk_create django_bulk_create (MkQuerySet (VStr "conn")) [0; 1] VNone
             (Samples.empty_alias, []) in
  state_db Samples.empty_alias 0 = VStr ""
  ∧ r.1.2 = [BulkCreateCall (VStr "conn") [0; 1] [VStr ""; VStr "conn"] VNone]
  ∧ state_db r.1.1 0 = VStr "conn"
  ∧ state_db r.1.1 0 ≠ state_db Samples.empty_alias 0.
Proof. by vm_compute. Qed.

(** The scenario of C3: object 0 is bound to [connX], objects 1 and 2 are
    fresh; the one call the backend receives sees 0 on [connX] and the
    others on the target. *)
Lemma bulk_create_scenario :
  let r := bulk_create recording_bulk_create (MkQuerySet (VStr "conn")) [0; 1; 2] VNone
             (Samples.one_bound, []) in
  r.2 = Ok [0; 1; 2]
  ∧ r.1.2 = [BulkCreateCall (VStr "conn") [0; 1; 2]
               [VStr "connX"; VStr "conn"; VStr "conn"] VNone]
  ∧ state_db r.1.1 0 = VStr "connX"
  ∧ state_db r.1.1 1 = VStr "conn"
  ∧ state_db r.1.1 2 = VStr "conn".
Proof. by vm_compute. Qed.

(** An object listed twice is bound at its first visit. *)
Lemma bulk_create_aliased :
  (bulk_create recording_bulk_create (MkQuerySet (VStr "conn")) [1; 1] VNone
     (Samples.one_bound, [])).1.2
  = [BulkCreateCall (VStr "conn") [1; 1] [VStr "conn"; VStr "conn"] VNone].
Proof. by vm_compute. Qed.

(** The two paths on an object bound to the empty string. *)
Lemma empty_alias_scenario :
  (save recording_save 0 Samples.using_conn (Samples.empty_alias, [])).1.2
  = [SaveCall 0 (VStr "conn") Samples.using_conn]
  ∧ (bulk_create recording_bulk_create (MkQuerySet (VStr "conn")) [0; 1] VNone
       (Samples.empty_alias, [])).1.2
    = [BulkCreateCall (VStr "conn") [0; 1] [VStr ""; VStr "conn"] VNone].
Proof. by vm_compute. Qed.

End WritePathFacts.


(** * Further properties of the code *)

(** ** How the primary shards follow the settings *)

Module TopologyUpdates.
Import Topology TopologyFacts.

Lemma primary_shards_NoDup (D : gmap string (gmap string pyval)) :
  NoDup (_get_primary_shards D).
Proof.
  unfold _get_primary_shards.
  apply sorted_NoDup, NoDup_filter, NoDup_fst_map_to_list.
Qed.

Lemma primary_shards_ascending (D : gmap string (gmap string pyval)) :
  StronglySorted String.le (_get_primary_shards D).
Proof. apply sorted_ascending. Qed.

(** Two ascending lists without repetition that hold the same names are the
    same list. *)
Lemma ascending_unique (l1 l2 : list string) :
  StronglySorted String.le l1 → NoDup l1 →
  StronglySorted String.le l2 → NoDup l2 →
  (∀ x, x ∈ l1 ↔ x ∈ l2) → l1 = l2.
Proof.
  intros Hs1 Hn1 Hs2 Hn2 Hmem.
  apply (Sorted_unique String.le); [by apply StronglySorted_Sorted ..|].
  by apply NoDup_Permutation.
Qed.

Lemma ascending_filter (P : string → Prop) `{∀ x, Decision (P x)} (l : list string) :
  StronglySorted String.le l → StronglySorted String.le (filter P l).
Proof.
  induction 1 as [|x l Hl IH Hx]; [constructor|].
  rewrite filter_cons. destruct (decide (P x)); [|done].
  constructor; [done|].
  apply Forall_forall. intros y Hy. apply list_elem_of_filter in Hy as [_ Hy].
  by apply (proj1 (Forall_forall _ _) Hx).
Qed.

(** X1: giving a database settings that do not make it a candidate (a
    replica, or a database outside every shard group) removes its name, if
    it was there, and leaves every other name in place. *)
Theorem primary_shards_insert_other (D : gmap string (gmap string pyval))
    (db : string) (conf : gmap string pyval) :
  candidate conf = false →
  _get_primary_shards (<[db := conf]> D) = filter (λ x, x ≠ db) (_get_primary_shards D).
Proof.
  intros Hc. apply ascending_unique.
  - apply primary_shards_ascending.
  - apply primary_shards_NoDup.
  - apply ascending_filter, primary_shards_ascending.
  - apply NoDup_filter, primary_shards_NoDup.
  - intros x. rewrite list_elem_of_filter, !elem_of_primary_shards.
    destruct (decide (x = db)) as [->|Hne].
    + rewrite lookup_insert_eq. split.
      * intros (c & Hl & Hcand). congruence.
      * intros [Hne _]. done.
    + rewrite lookup_insert_ne by done. tauto.
Qed.

Lemma primary_shards_insert_other_witness :
  _get_primary_shards (<["A" := {[ "PRIMARY" := VStr "C"; "SHARD_GROUP" := VStr "g" ]}]>
                         Samples.replicated)
  = filter (λ x, x ≠ "A") (_get_primary_shards Samples.replicated).
Proof.
  apply (primary_shards_insert_other Samples.replicated "A").
  reflexivity.
Defined.

(** X2: giving a database settings that make it a candidate puts its name
    at its place in the order, beside the names that were there. *)
Theorem primary_shards_insert_candidate (D : gmap string (gmap string pyval))
    (db : string) (conf : gmap string pyval) :
  candidate conf = true →
  _get_primary_shards (<[db := conf]> D)
  = sorted (db :: filter (λ x, x ≠ db) (_get_primary_shards D)).
Proof.
  intros Hc. apply ascending_unique.
  - apply primary_shards_ascending.
  - apply primary_shards_NoDup.
  - apply sorted_ascending.
  - apply sorted_NoDup, NoDup_cons. split.
    + rewrite list_elem_of_filter. intros [Hne _]. by apply Hne.
    + apply NoDup_filter, primary_shards_NoDup.
  - intros x.
    rewrite elem_of_sorted, elem_of_cons, list_elem_of_filter, !elem_of_primary_shards.
    destruct (decide (x = db)) as [->|Hne].
    + rewrite lookup_insert_eq. split; [by left | intros _; by exists conf].
    + rewrite lookup_insert_ne by done. tauto.
Qed.

Lemma primary_shards_insert_candidate_witness :
  _get_primary_shards (<["B" := {[ "SHARD_GROUP" := VStr "g" ]}]> Samples.replicated)
  = sorted ("B" :: filter (λ x, x ≠ "B") (_get_primary_shards Samples.replicated)).
Proof.
  apply (primary_shards_insert_candidate Samples.replicated "B").
  reflexivity.
Defined.

(** X3: dropping a database from the settings removes its name and nothing
    else. *)
Theorem primary_shards_delete (D : gmap string (gmap string pyval)) (db : string) :
  _get_primary_shards (delete db D) = filter (λ x, x ≠ db) (_get_primary_shards D).
Proof.
  apply ascending_unique.
  - apply primary_shards_ascending.
  - apply primary_shards_NoDup.
  - apply ascending_filter, primary_shards_ascending.
  - apply NoDup_filter, primary_shards_NoDup.
  - intros x. rewrite list_elem_of_filter, !elem_of_primary_shards.
    destruct (decide (x = db)) as [->|Hne].
    + rewrite lookup_delete_eq. split; [intros (c & Hl & _); discriminate | intros [Hne _]; by destruct Hne].
    + rewrite lookup_delete_ne by done. tauto.
Qed.

Lemma candidate_other_setting (conf : gmap string pyval) (key : string) (v : pyval) :
  key ≠ "PRIMARY" → key ≠ "SHARD_GROUP" →
  candidate (<[key := v]> conf) = candidate conf.
Proof.
  intros Hp Hg. unfold candidate, dict_get.
  by rewrite !lookup_insert_ne.
Qed.

(** X4: a setting other than [PRIMARY] and [SHARD_GROUP] has no say: writing
    one into the settings of a database leaves the result as it is. *)
Theorem primary_shards_other_setting (D : gmap string (gmap string pyval))
    (db : string) (conf : gmap string pyval) (key : string) (v : pyval) :
  D !! db = Some conf →
  key ≠ "PRIMARY" → key ≠ "SHARD_GROUP" →
  _get_primary_shards (<[db := <[key := v]> conf]> D) = _get_primary_shards D.
Proof.
  intros Hconf Hp Hg. apply ascending_unique.
  - apply primary_shards_ascending.
  - apply primary_shards_NoDup.
  - apply primary_shards_ascending.
  - apply primary_shards_NoDup.
  - intros x. rewrite !elem_of_primary_shards.
    destruct (decide (x = db)) as [->|Hne].
    + rewrite lookup_insert_eq. split.
      * intros (c & Hl & Hcand). injection Hl as <-.
        rewrite candidate_other_setting in Hcand by done. by exists conf.
      * intros (c & Hl & Hcand). exists (<[key := v]> conf). split; [done|].
        rewrite candidate_other_setting by done. congruence.
    + by rewrite lookup_insert_ne.
Qed.

Lemma primary_shards_other_setting_witness :
  _get_primary_shards
    (<["A" := <["ENGINE" := VStr "django.db.backends.sqlite3"]>
                {[ "SHARD_GROUP" := VStr "g" ]}]> Samples.replicated)
  = _get_primary_shards Samples.replicated.
Proof.
  apply (primary_shards_other_setting Samples.replicated "A"); [reflexivity | done | done].
Defined.

(** X5: the result is empty exactly when no database of the settings is a
    candidate; empty settings are such. *)
Theorem primary_shards_empty (D : gmap string (gmap string pyval)) :
  _get_primary_shards D = [] ↔ ∀ db conf, D !! db = Some conf → candidate conf = false.
Proof.
  split.
  - intros Hnil db conf Hconf.
    destruct (candidate conf) eqn:Hc; [|done].
    assert (Hin : db ∈ _get_primary_shards D).
    { apply elem_of_primary_shards. by exists conf. }
    rewrite Hnil in Hin. by apply elem_of_nil in Hin.
  - intros Hnone.
    destruct (_get_primary_shards D) as [|x l] eqn:Hl; [done|].
    assert (Hin : x ∈ _get_primary_shards D) by (rewrite Hl; left).
    apply elem_of_primary_shards in Hin as (conf & Hconf & Hc).
    rewrite (Hnone x conf Hconf) in Hc. discriminate.
Qed.

End TopologyUpdates.


(** ** What the choice generators yield *)

Module ChoicesYield.
Import Choices ChoicesFacts.




Lemma pairs_fst (l : list string) : (pairs l).*1 = l.
Proof. induction l as [|i l IH]; [done | simpl; f_equal; exact IH]. Qed.

Lemma pairs_snd (l : list string) : (pairs l).*2 = l.
Proof. induction l as [|i l IH]; [done | simpl; f_equal; exact IH]. Qed.

(** X7: right after the import the [shard] fields of both classes have the
    same choices; they carry the primary shard names, in their order, both
    as the stored value and as the label, and offer no value twice. *)
Theorem choices_values_and_labels (D : gmap string (gmap string pyval)) :
  let choices := ShardedByMixin_shard_choices (import_models D) in
  choices = ShardStorageModel_shard_choices (import_models D)
  ∧ choices.*1 = Topology._get_primary_shards D
  ∧ choices.*2 = Topology._get_primary_shards D
  ∧ NoDup choices.*1.
Proof.
  unfold import_models, class_body, CharField, py_list, genexpr.
  cbn [ShardedByMixin_shard_choices ShardStorageModel_shard_choices pending].
  split; [done|]. rewrite pairs_fst, pairs_snd.
  split; [done|]. split; [done|].
  apply TopologyUpdates.primary_shards_NoDup.
Qed.

End ChoicesYield.

(** ** The binding loop of [bulk_create] *)

Module BindingLoop.
Import WritePath WritePathFacts.

Lemma adding_set_state_db (obj obj' : ref) (v : pyval) (h : store) :
  adding (_state (set_state_db obj v h obj')) = adding (_state (h obj')).
Proof.
  destruct (decide (obj' = obj)) as [->|Hne].
  - unfold set_state_db. by rewrite fn_lookup_insert.
  - by rewrite set_state_db_ne.
Qed.

Lemma adding_bind_all (self : QuerySet) (objs : list ref) (h : store) (obj : ref) :
  adding (_state (bind_all self objs h obj)) = adding (_state (h obj)).
Proof.
  revert h. induction objs as [|o rest IH]; intros h; simpl; [done|].
  rewrite IH. destruct (is_None (state_db h o)); [apply adding_set_state_db | done].
Qed.

Lemma Model_eq (m1 m2 : Model) :
  db (_state m1) = db (_state m2) →
  adding (_state m1) = adding (_state m2) →
  attrs m1 = attrs m2 →
  m1 = m2.
Proof.
  destruct m1 as [[d1 a1] f1], m2 as [[d2 a2] f2]; simpl. by intros -> -> ->.
Qed.

(** X8: the loop binds once. An object that a pass with a target has gone
    through keeps, in any later pass over any sequence and with any target,
    the connection the first pass left it with. *)
Theorem bind_all_sticky (qs1 qs2 : QuerySet) (objs1 objs2 : list ref)
    (h : store) (obj : ref) :
  _db qs1 ≠ VNone →
  obj ∈ objs1 →
  bind_all qs2 objs2 (bind_all qs1 objs1 h) obj = bind_all qs1 objs1 h obj
  ∧ state_db (bind_all qs1 objs1 h) obj
    = (if is_None (state_db h obj) then _db qs1 else state_db h obj).
Proof.
  intros Htarget Hin.
  assert (Hfirst : state_db (bind_all qs1 objs1 h) obj
                   = if is_None (state_db h obj) then _db qs1 else state_db h obj).
  { rewrite state_db_bind_all. by rewrite decide_True. }
  split; [|done].
  apply Model_eq; [|apply adding_bind_all|apply attrs_bind_all].
  fold (state_db (bind_all qs2 objs2 (bind_all qs1 objs1 h)) obj).
  fold (state_db (bind_all qs1 objs1 h) obj).
  rewrite (state_db_bind_all qs2). destruct (decide (obj ∈ objs2)); [|done].
  rewrite Hfirst. destruct (state_db h obj) eqn:Hold; simpl; try done.
  by destruct (_db qs1).
Qed.

Lemma bind_all_sticky_witness :
  bind_all (MkQuerySet (VStr "other")) [1; 0]
    (bind_all (MkQuerySet (VStr "conn")) [0; 1] fresh) 1
  = bind_all (MkQuerySet (VStr "conn")) [0; 1] fresh 1
  ∧ state_db (bind_all (MkQuerySet (VStr "conn")) [0; 1] fresh) 1
    = (if is_None (state_db fresh 1) then VStr "conn" else state_db fresh 1).
Proof.
  apply (bind_all_sticky (MkQuerySet (VStr "conn")) (MkQuerySet (VStr "other"))).
  - discriminate.
  - set_solver.
Defined.

(** X9: the loop does not depend on the order of the sequence nor on how
    often an object occurs in it: two sequences over the same objects leave
    the same store. *)
Theorem bind_all_order_irrelevant (self : QuerySet) (objs1 objs2 : list ref)
    (h : store) (obj : ref) :
  (∀ x, x ∈ objs1 ↔ x ∈ objs2) →
  bind_all self objs1 h obj = bind_all self objs2 h obj.
Proof.
  intros Hsame. apply Model_eq.
  - fold (state_db (bind_all self objs1 h) obj).
    fold (state_db (bind_all self objs2 h) obj).
    rewrite !state_db_bind_all.
    destruct (decide (obj ∈ objs1)) as [H1|H1], (decide (obj ∈ objs2)) as [H2|H2];
      try done; exfalso; apply Hsame in H1 || apply Hsame in H2; done.
  - by rewrite !adding_bind_all.
  - by rewrite !attrs_bind_all.
Qed.

Lemma bind_all_order_irrelevant_witness :
  bind_all (MkQuerySet (VStr "conn")) [0; 1; 1] Samples.one_bound 1
  = bind_all (MkQuerySet (VStr "conn")) [1; 0] Samples.one_bound 1.
Proof.
  apply (bind_all_order_irrelevant (MkQuerySet (VStr "conn")) [0; 1; 1] [1; 0]).
  intros x. rewrite !elem_of_cons. pose proof (elem_of_nil x). tauto.
Defined.

Section delegation.

Context {Backend : Type}.
Variable super_save :
  ref → gmap string pyval → store * Backend → (store * Backend) * result unit.
Variable super_bulk_create :
  QuerySet → list ref → pyval → store * Backend → (store * Backend) * result (list ref).

(** X10: with a target on the query set, the underlying [bulk_create]
    never sees an object of the sequence bound to [None]. *)
Theorem bulk_create_all_bound (self : QuerySet) (objs : list ref)
    (batch_size : pyval) (h : store) (b : Backend) :
  _db self ≠ VNone →
  ∃ h',
    bulk_create super_bulk_create self objs batch_size (h, b)
    = super_bulk_create self objs batch_size (h', b)
    ∧ Forall (λ obj, state_db h' obj ≠ VNone) objs.
Proof.
  intros Htarget. exists (bind_all self objs h). split; [reflexivity|].
  apply Forall_forall. intros obj Hin.
  rewrite state_db_bind_all. rewrite decide_True by done.
  by destruct (state_db h obj).
Qed.

(** X11: on an object that is bound to [None] or to a truthy connection,
    [save(using=t)] and [bulk_create] through a query set on [t] hand the
    underlying operations the same binding. *)
Theorem save_bulk_create_agree (self : ref) (kwargs : gmap string pyval)
    (qs : QuerySet) (objs : list ref) (batch_size : pyval)
    (h : store) (b : Backend) :
  state_db h self = VNone ∨ truthy (state_db h self) = true →
  kwargs !! "using" = Some (_db qs) →
  self ∈ objs →
  ∃ hs hb,
    save super_save self kwargs (h, b) = super_save self kwargs (hs, b)
    ∧ bulk_create super_bulk_create qs objs batch_size (h, b)
      = super_bulk_create qs objs batch_size (hb, b)
    ∧ hs self = hb self.
Proof.
  intros Hdb Husing Hin.
  exists (if truthy (state_db h self) then h else set_state_db self (_db qs) h),
         (bind_all qs objs h).
  split; [|split; [reflexivity|]].
  - unfold save; simpl. rewrite Husing. by destruct (truthy (state_db h self)).
  - apply Model_eq.
    + fold (state_db (bind_all qs objs h) self). rewrite state_db_bind_all.
      rewrite decide_True by done.
      destruct Hdb as [Hnone|Htruthy].
      * rewrite Hnone; simpl. apply state_db_set_eq.
      * rewrite Htruthy. fold (state_db h self). by destruct (state_db h self).
    + rewrite adding_bind_all. destruct (truthy (state_db h self)); [done|].
      apply adding_set_state_db.
    + rewrite attrs_bind_all. destruct (truthy (state_db h self)); [done|].
      apply attrs_set_state_db.
Qed.

End delegation.

Lemma bulk_create_all_bound_witness :
  ∃ h',
    bulk_create recording_bulk_create (MkQuerySet (VStr "conn")) [0; 1] VNone
      (Samples.one_bound, [])
    = recording_bulk_create (MkQuerySet (VStr "conn")) [0; 1] VNone (h', [])
    ∧ Forall (λ obj, state_db h' obj ≠ VNone) [0; 1].
Proof.
  apply (bulk_create_all_bound recording_bulk_create (MkQuerySet (VStr "conn"))).
  discriminate.
Defined.

Lemma save_bulk_create_agree_witness :
  ∃ hs hb,
    save recording_save 1 Samples.using_conn (Samples.one_bound, [])
    = recording_save 1 Samples.using_conn (hs, [])
    ∧ bulk_create recording_bulk_create (MkQuerySet (VStr "conn")) [0; 1] VNone
        (Samples.one_bound, [])
      = recording_bulk_create (MkQuerySet (VStr "conn")) [0; 1] VNone (hb, [])
    ∧ hs 1 = hb 1.
Proof.
  apply (save_bulk_create_agree recording_save recording_bulk_create 1
           Samples.using_conn (MkQuerySet (VStr "conn"))).
  - left. reflexivity.
  - reflexivity.
  - set_solver.
Defined.

End BindingLoop.
